(** * weather-icon: the request pipeline of [index.js]

    The service answers [GET /] with an SVG icon of the current weather at
    the caller's location.  Three stages run in sequence: [getLocation]
    (address to latitude/longitude through ip-api.com), [getWeather]
    (coordinates to the Dark Sky payload) and [getIcon] (payload to SVG
    text).  This file embeds the three stages and the helper [requestJSON]
    and states what each of them does. *)

From Stdlib Require Import String Ascii List Bool ZArith.
From Stdlib Require Import Floats.SpecFloat.
Import ListNotations.
Local Open Scope string_scope.

(* ================================================================== *)
(** * Text *)

(** JavaScript source text is full of double quotes.  The fragments below
    are written with an apostrophe wherever the source has a double quote
    (no fragment of the source contains an apostrophe) and [markup] puts the
    double quotes back. *)
Definition dquote : ascii := "034"%char.

Fixpoint markup (s : string) : string :=
  match s with
  | EmptyString => EmptyString
  | String c rest =>
      String (if Ascii.eqb c "'"%char then dquote else c) (markup rest)
  end.

(** [contains frag s]: the text [frag] occurs somewhere in [s]. *)
Fixpoint contains (frag s : string) : bool :=
  prefix frag s ||
  match s with
  | EmptyString => false
  | String _ rest => contains frag rest
  end.

(** [occurrences frag s]: the number of positions of [s] at which [frag]
    starts. *)
Fixpoint occurrences (frag s : string) : nat :=
  (if prefix frag s then 1 else 0) +
  match s with
  | EmptyString => 0
  | String _ rest => occurrences frag rest
  end.

Definition starts_with (frag s : string) : bool := prefix frag s.

Fixpoint ends_with (frag s : string) : bool :=
  (s =? frag) ||
  match s with
  | EmptyString => false
  | String _ rest => ends_with frag rest
  end.

(* ================================================================== *)
(** * JavaScript values *)

#[local] Set Warnings "-register-all".

(** What [JSON.parse] can return, plus [undefined], which a property read
    yields for an absent name.  Numbers are IEEE-754 doubles; an object is
    the list of its own properties. *)
Inductive jsvalue : Type :=
| JUndefined
| JNull
| JBool (b : bool)
| JNum (x : spec_float)
| JStr (s : string)
| JArr (items : list jsvalue)
| JObj (props : list (string * jsvalue)).

Inductive js_error : Type :=
| Error (message : string)          (* [new Error(message)] *)
| TypeError                         (* property read on undefined or null, ... *)
| SyntaxError                       (* [JSON.parse] on a malformed text *)
| TransportError (code : string).   (* the [err] of the request callback *)

(** The result of running a statement list: a value or a thrown error. *)
Inductive completion (A : Type) : Type :=
| Returned (a : A)
| Thrown (e : js_error).
Arguments Returned {A} a.
Arguments Thrown {A} e.

Definition bind {A B : Type} (c : completion A) (k : A -> completion B)
  : completion B :=
  match c with
  | Returned a => k a
  | Thrown e => Thrown e
  end.

Notation "'let*' x ':=' c 'in' k" := (bind c (fun x => k))
  (at level 10, x name, c at level 100, k at level 200).

(** ToBoolean. *)
Definition truthy (v : jsvalue) : bool :=
  match v with
  | JUndefined | JNull => false
  | JBool b => b
  | JNum (S754_zero _) | JNum S754_nan => false
  | JNum _ => true
  | JStr s => negb (s =? "")
  | JArr _ | JObj _ => true
  end.

(** [v === 'lit'] for a string literal. *)
Definition strict_eq_str (v : jsvalue) (lit : string) : bool :=
  match v with
  | JStr s => s =? lit
  | _ => false
  end.

(** The value of the first property called [name], [undefined] when there
    is none. *)
Fixpoint own_property (name : string) (props : list (string * jsvalue))
  : jsvalue :=
  match props with
  | [] => JUndefined
  | (k, v) :: rest => if k =? name then v else own_property name rest
  end.

(** [v.name] for the names this program reads ([lat], [lon], [currently],
    [icon]).  None of them is a property of a built-in prototype, so on a
    primitive or an array the read yields [undefined]; on [undefined] and
    [null] it throws. *)
Definition get_prop (v : jsvalue) (name : string) : completion jsvalue :=
  match v with
  | JUndefined | JNull => Thrown TypeError
  | JObj props => Returned (own_property name props)
  | _ => Returned JUndefined
  end.

(* ================================================================== *)
(** * SVG content *)

(** "Base SVG declaration": the text [svg] starts from in [getIcon]. *)
Definition SVG_HEADER : string := Eval vm_compute in markup
"<?xml version='1.0' encoding='UTF-8' ?>
<svg xmlns='http://www.w3.org/2000/svg' version='1.1' viewbox='0 0 200 230'>".

Definition SVG_SUN : string := Eval vm_compute in markup
"
<g fill='#FFE000' stroke='#FEE000'>
	<circle r='30' cx='100' cy='100' />
	<g transform='translate(100 100)'>
		<line x1='0' x2='0' y1='35' y2='70' stroke-width='4' transform='rotate(0)'  />
		<line x1='0' x2='0' y1='35' y2='60' stroke-width='4' transform='rotate(45)'  />
		<line x1='0' x2='0' y1='35' y2='70' stroke-width='4' transform='rotate(90)'  />
		<line x1='0' x2='0' y1='35' y2='60' stroke-width='4' transform='rotate(135)' />
		<line x1='0' x2='0' y1='35' y2='70' stroke-width='4' transform='rotate(180)' />
		<line x1='0' x2='0' y1='35' y2='60' stroke-width='4' transform='rotate(225)' />
		<line x1='0' x2='0' y1='35' y2='70' stroke-width='4' transform='rotate(270)' />
		<line x1='0' x2='0' y1='35' y2='60' stroke-width='4' transform='rotate(315)' />
	</g>
</g>
".

Definition SVG_MOON : string := Eval vm_compute in markup
"
<g fill='#E0E0E0'>
	<circle r='50' cx='100' cy='100' />
	<g fill='#CCCCCC'>
		<circle r='10' cx='80' cy='90' />
		<circle r='7' cx='115' cy='110' />
		<circle r='8' cx='90' cy='120' />
	</g>
</g>
".

Definition SVG_CLOUD : string := Eval vm_compute in markup
"
<g fill='#ACACAC'>
	<circle r='40' cx='120' cy='70' />
	<circle r='35' cx='70' cy='90' />
	<circle r='40' cx='140' cy='90' />
	<circle r='35' cx='100' cy='105' />
</g>
".

Definition SVG_PARTLY_CLOUDY_TRANSFORM : string := Eval vm_compute in markup
"transform='translate(20 50)'".

Definition SVG_RAIN : string := Eval vm_compute in markup
"
<g stroke='#1F90CC' stroke-width='2' transform='translate(100 100) rotate(25)'>
	<line x1='0' x2='0' y1='35' y2='60' transform='translate(10 20)'   />
	<line x1='0' x2='0' y1='35' y2='60' transform='translate(-20 10)'  />
	<line x1='0' x2='0' y1='35' y2='60' transform='translate(0 0)'     />
	<line x1='0' x2='0' y1='35' y2='60' transform='translate(30 30)'   />
	<line x1='0' x2='0' y1='35' y2='60' transform='translate(20 -10)'  />
	<line x1='0' x2='0' y1='35' y2='60' transform='translate(40 -5)'   />
	<line x1='0' x2='0' y1='35' y2='60' transform='translate(50 -30)'  />
	<line x1='0' x2='0' y1='35' y2='60' transform='translate(-40 -10)' />
	<line x1='0' x2='0' y1='35' y2='60' transform='translate(-30 40)'  />
</g>
".

Definition SVG_SNOW : string := Eval vm_compute in markup
"
<g fill='#FFFFFF' transform='translate(100 130)'>
	<circle r='7' cx='25' cy='15' />
	<circle r='7' cx='35' cy='50' />
	<circle r='7' cx='50' cy='20' />
	<circle r='7' cx='10' cy='60' />
	<circle r='7' cx='-50' cy='20' />
	<circle r='7' cx='0' cy='35' />
	<circle r='7' cx='-20' cy='10' />
	<circle r='7' cx='-35' cy='45' />
</g>".

Definition SVG_WIND : string := Eval vm_compute in markup
"
<g fill='none' stroke='#FFFFFF' stroke-width='3' transform='translate(0, 40)'>
	<g>
		<path d='M 10,30 Q 70,50 110,23 L 110,59' fill='#D9F4FF' />
		<circle r='20' cx='120' cy='40' fill='#D0EFFF' opacity='0.9'/>
	</g>
	<g transform='translate(20, 25)'>
		<path d='M 30,30 Q 70,50 110,23 L 110,59' fill='#D9F4FF' />
		<circle r='20' cx='120' cy='40' fill='#D0EFFF' opacity='0.9'/>
	</g>
	<g transform='translate(50, 50)'>
		<path d='M 40,30 Q 70,50 110,23 L 110,59' fill='#D9F4FF' />
		<circle r='20' cx='120' cy='40' fill='#D0EFFF' opacity='0.9'/>
	</g>
</g>
".

Definition SVG_CREDIT : string := Eval vm_compute in markup
"<text fill='#606060' x='0' y='220' font-size='10' font-family='Helvetica'>Powered By Dark Sky</text>".

(* ================================================================== *)
(** * [switch] with fall-through *)

(** The two [switch] statements of [getIcon] only append text to [svg] and
    [break].  A clause without [Break] falls through into the next one. *)
Inductive stmt : Type :=
| Append (text : string)      (* [svg += text;] *)
| Break.                      (* [break;] *)

Inductive clause : Type :=
| Case (lit : string) (body : list stmt)     (* [case 'lit': body] *)
| Default (body : list stmt).                (* [default: body] *)

Definition clause_body (c : clause) : list stmt :=
  match c with
  | Case _ body => body
  | Default body => body
  end.

(** Runs a clause body; the flag tells whether a [break] was reached. *)
Fixpoint run_stmts (body : list stmt) (svg : string) : string * bool :=
  match body with
  | [] => (svg, false)
  | Append text :: rest => run_stmts rest (svg ++ text)
  | Break :: _ => (svg, true)
  end.

Fixpoint fall_through (cs : list clause) (svg : string) : string :=
  match cs with
  | [] => svg
  | c :: rest =>
      let (svg', stop) := run_stmts (clause_body c) svg in
      if stop then svg' else fall_through rest svg'
  end.

(** The clauses from the first [case] whose literal is [===] to [v]. *)
Fixpoint from_case (v : jsvalue) (cs : list clause) : option (list clause) :=
  match cs with
  | [] => None
  | Case lit _ :: rest =>
      if strict_eq_str v lit then Some cs else from_case v rest
  | Default _ :: rest => from_case v rest
  end.

(** The clauses from [default:] on. *)
Fixpoint from_default (cs : list clause) : option (list clause) :=
  match cs with
  | [] => None
  | Case _ _ :: rest => from_default rest
  | Default _ :: _ => Some cs
  end.

Definition switch (v : jsvalue) (cs : list clause) (svg : string) : string :=
  match from_case v cs with
  | Some entry => fall_through entry svg
  | None =>
      match from_default cs with
      | Some entry => fall_through entry svg
      | None => svg
      end
  end.

(* ================================================================== *)
(** * [getIcon] *)

(** "Draw the bottom layer" *)
Definition bottom_layer : list clause :=
  [ Case "clear-day" [];
    Case "partly-cloudy-day" [Append SVG_SUN; Break];
    Case "clear-night" [];
    Case "partly-cloudy-night" [Append SVG_MOON; Break];
    Case "rain" [Append SVG_RAIN; Break];
    Case "snow" [];
    Case "hail" [Append SVG_SNOW; Break];
    Case "sleet" [Append SVG_RAIN; Append SVG_SNOW; Break];
    Case "wind" [Append SVG_WIND; Break] ].

(** "Draw the cloud on top" *)
Definition cloud_layer : list clause :=
  [ Case "clear-day" [];
    Case "clear-night" [];
    Case "wind" [Break];
    Case "partly-cloudy-day" [];
    Case "partly-cloudy-night"
      [Append ("<g " ++ SVG_PARTLY_CLOUDY_TRANSFORM ++ ">")];
    Default [Append SVG_CLOUD] ].

Definition getIcon (weather : jsvalue) : completion string :=
  let* currently := get_prop weather "currently" in
  let* icon := get_prop currently "icon" in
  let svg := SVG_HEADER in
  let svg := switch icon bottom_layer svg in
  let svg := switch icon cloud_layer svg in
  let svg :=
    if strict_eq_str icon "partly-cloudy-day"
       || strict_eq_str icon "partly-cloudy-night"
    then svg ++ "</g>"
    else svg in
  let svg := svg ++ SVG_CREDIT in
  Returned (svg ++ "</svg>").

(* ================================================================== *)
(** * Promises and the outside world *)

(** What the process does that can be seen from outside, in order. *)
Inductive event : Type :=
| HttpGet (url : string)        (* [Request.getAsync(url)] *)
| Warn (message : string).      (* [console.warn(message)] *)

Inductive promise (A : Type) : Type :=
| Fulfilled (a : A)
| Rejected (e : js_error).
Arguments Fulfilled {A} a.
Arguments Rejected {A} e.

(** An asynchronous computation: it extends the log of events and settles. *)
Definition task (A : Type) : Type := list event -> promise A * list event.

(** [p.then(f)]: [f] runs on the fulfilment value; what it throws rejects
    the new promise. *)
Definition then_ {A B : Type} (t : task A) (f : A -> completion B) : task B :=
  fun log =>
    let (p, log') := t log in
    match p with
    | Fulfilled a =>
        match f a with
        | Returned b => (Fulfilled b, log')
        | Thrown e => (Rejected e, log')
        end
    | Rejected e => (Rejected e, log')
    end.

(** [p.then(f)] for an [f] that returns a promise. *)
Definition and_then {A B : Type} (t : task A) (f : A -> task B) : task B :=
  fun log =>
    let (p, log') := t log in
    match p with
    | Fulfilled a => f a log'
    | Rejected e => (Rejected e, log')
    end.

(** Bluebird's [p.spread(f)] for a two-argument [f]: the fulfilment value
    must be an array, whose items become the arguments. *)
Definition spread {B : Type} (t : task jsvalue)
  (f : jsvalue -> jsvalue -> task B) : task B :=
  and_then t (fun v =>
    match v with
    | JArr items => f (nth 0 items JUndefined) (nth 1 items JUndefined)
    | _ => fun log => (Rejected TypeError, log)
    end).

(** What one GET meets: the request fails in transport, or a response
    arrives with a status code and a body. *)
Inductive http_outcome : Type :=
| NetworkFailure (code : string)
| Responded (statusCode : Z) (body : string).

Record response : Type := { statusCode : Z }.

(** The parts of the platform the program calls and does not define: the
    network behind [request], [JSON.parse] ([None] when it throws its
    [SyntaxError]) and the number-to-string conversion of the language. *)
Record Host : Type := {
  network : string -> http_outcome;
  JSON_parse : string -> option jsvalue;
  Number_toString : spec_float -> string
}.

(** What the program reads from the incoming request: the address list
    [proxyaddr.all(req, 'uniquelocal')] (an item is a string, or
    [undefined] when the socket has no remote address) and the secret
    [req.webtaskContext.secrets.DARKSKY_API_KEY]. *)
Record Request : Type := {
  proxyaddr_all : list jsvalue;
  DARKSKY_API_KEY : string
}.

(** [a[i]] *)
Definition array_get (a : list jsvalue) (i : Z) : jsvalue :=
  if (i <? 0)%Z then JUndefined else nth (Z.to_nat i) a JUndefined.

Definition IP_LOOKUP_BASE_URL : string := "http://ip-api.com/json/".
Definition WEATHER_LOOKUP_BASE_URL : string :=
  "https://api.darksky.net/forecast/".

(** What the route handler ends with: [res.send(body)] under the content
    type set before, or [next(err)]. *)
Inductive reply : Type :=
| Sent (contentType : string) (body : string)
| Next (err : js_error).

Section Pipeline.

Variable host : Host.

(** ToString, as string concatenation with [+] applies it. *)
Fixpoint to_string (v : jsvalue) : string :=
  match v with
  | JUndefined => "undefined"
  | JNull => "null"
  | JBool true => "true"
  | JBool false => "false"
  | JNum x => Number_toString host x
  | JStr s => s
  | JArr items =>
      String.concat ","
        (map (fun item =>
                match item with
                | JUndefined | JNull => ""
                | _ => to_string item
                end) items)
  | JObj _ => "[object Object]"
  end.

(** [Request.getAsync(url)], the promisified [request.get]: it rejects with
    the callback's [err], or fulfils with the callback's two results as
    [[response, body]], from which [.get(1)] takes the body. *)
Definition Request_getAsync (url : string) : task (response * string) :=
  fun log =>
    (match network host url with
     | NetworkFailure code => Rejected (TransportError code)
     | Responded status body => Fulfilled ({| statusCode := status |}, body)
     end,
     (log ++ [HttpGet url])%list).

Definition requestJSON (url : string) : task jsvalue :=
  then_
    (then_ (Request_getAsync url) (fun pair => Returned (snd pair)))
    (fun body =>
       match JSON_parse host body with
       | Some v => Returned v
       | None => Thrown SyntaxError
       end).

(** The function given to [.then] in [getLocation]. *)
Definition getLocation_then (ipData : jsvalue) : completion jsvalue :=
  let* lat := get_prop ipData "lat" in
  let* long := get_prop ipData "lon" in
  if negb (truthy lat) || negb (truthy long)
  then Thrown (Error "Unable to find your location")
  else Returned (JArr [lat; long]).

Definition getLocation (req : Request) : task jsvalue :=
  fun log =>
    let ip := proxyaddr_all req in
    let ip := array_get ip (Z.of_nat (length ip) - 1) in
    let (ip, log) :=
      if negb (truthy ip)
      then (JStr "156.74.181.208",
            (log ++ [Warn "Unable to determine remote IP Address"])%list)
      else (ip, log) in
    then_ (requestJSON (IP_LOOKUP_BASE_URL ++ to_string ip))
          getLocation_then log.

Definition getWeather (req : Request) (lat long : jsvalue) : task jsvalue :=
  let weatherUrl :=
    WEATHER_LOOKUP_BASE_URL ++ DARKSKY_API_KEY req ++ "/"
      ++ to_string lat ++ "," ++ to_string long in
  requestJSON weatherUrl.

(** [app.get('/', ...)] *)
Definition route (req : Request) : list event -> reply * list event :=
  fun log =>
    let (p, log') :=
      then_ (spread (getLocation req) (getWeather req))
            (fun weatherData =>
               let* body := getIcon weatherData in
               Returned (Sent "image/svg+xml" body)) log in
    match p with
    | Fulfilled r => (r, log')
    | Rejected e => (Next e, log')
    end.

End Pipeline.

(* ================================================================== *)
(** * Vocabulary of the statements *)

(** [weather.currently.icon], as the first line of [getIcon] reads it. *)
Definition icon_of (weather : jsvalue) : completion jsvalue :=
  let* currently := get_prop weather "currently" in
  get_prop currently "icon".

(** [getIcon] after that first line. *)
Definition icon_svg (icon : jsvalue) : string :=
  let svg := SVG_HEADER in
  let svg := switch icon bottom_layer svg in
  let svg := switch icon cloud_layer svg in
  let svg :=
    if strict_eq_str icon "partly-cloudy-day"
       || strict_eq_str icon "partly-cloudy-night"
    then svg ++ "</g>"
    else svg in
  let svg := svg ++ SVG_CREDIT in
  svg ++ "</svg>".

(** [icon] is [===] to one of [codes]. *)
Definition code_in (icon : jsvalue) (codes : list string) : bool :=
  existsb (strict_eq_str icon) codes.

Definition enumerated_codes : list string :=
  [ "clear-day"; "clear-night"; "partly-cloudy-day"; "partly-cloudy-night";
    "rain"; "snow"; "hail"; "sleet"; "wind" ].

(** The ten ways [getIcon] can go. *)
Inductive condition : Type :=
| ClearDay | PartlyCloudyDay | ClearNight | PartlyCloudyNight
| Rain | Snow | Hail | Sleet | Wind | Other.

Definition classify (icon : jsvalue) : condition :=
  if strict_eq_str icon "clear-day" then ClearDay
  else if strict_eq_str icon "partly-cloudy-day" then PartlyCloudyDay
  else if strict_eq_str icon "clear-night" then ClearNight
  else if strict_eq_str icon "partly-cloudy-night" then PartlyCloudyNight
  else if strict_eq_str icon "rain" then Rain
  else if strict_eq_str icon "snow" then Snow
  else if strict_eq_str icon "hail" then Hail
  else if strict_eq_str icon "sleet" then Sleet
  else if strict_eq_str icon "wind" then Wind
  else Other.

(** The opening tag of the translating group. *)
Definition GROUP_OPEN : string := "<g " ++ SVG_PARTLY_CLOUDY_TRANSFORM ++ ">".

(** The layers of each condition as the specification lists them: base
    layer, then the cloud, wrapped for the partly cloudy pair. *)
Definition layers (c : condition) : string :=
  match c with
  | ClearDay => SVG_SUN
  | PartlyCloudyDay => SVG_SUN ++ GROUP_OPEN ++ SVG_CLOUD ++ "</g>"
  | ClearNight => SVG_MOON
  | PartlyCloudyNight => SVG_MOON ++ GROUP_OPEN ++ SVG_CLOUD ++ "</g>"
  | Rain => SVG_RAIN ++ SVG_CLOUD
  | Snow | Hail => SVG_SNOW ++ SVG_CLOUD
  | Sleet => SVG_RAIN ++ SVG_SNOW ++ SVG_CLOUD
  | Wind => SVG_WIND
  | Other => SVG_CLOUD
  end.

Definition document (body : string) : string :=
  SVG_HEADER ++ body ++ SVG_CREDIT ++ "</svg>".

(** A Dark Sky payload reduced to what matters here, with one field more
    to stand for the rest. *)
Definition forecast (code : string) : jsvalue :=
  JObj [ ("timezone", JStr "America/Los_Angeles");
         ("currently", JObj [ ("summary", JStr "n/a"); ("icon", JStr code) ]) ].

(** The payload gives [getIcon] no [currently] to read [icon] from: the
    payload itself is [undefined] or [null], or its [currently] is absent
    or [null]. *)
Definition no_currently (weather : jsvalue) : bool :=
  match get_prop weather "currently" with
  | Thrown _ => true
  | Returned JUndefined | Returned JNull => true
  | Returned _ => false
  end.

Definition XML_DECLARATION : string :=
  markup "<?xml version='1.0' encoding='UTF-8' ?>".

Definition SVG_OPEN : string := markup
  "<svg xmlns='http://www.w3.org/2000/svg' version='1.1' viewbox='0 0 200 230'>".

Definition newline : string := String "010"%char "".

(** ** Well-nested markup

    A scanner for the tags of a document: [<?...?>] is skipped, [<name ...>]
    opens an element, [<name .../>] opens and closes one, [</name>] closes
    the innermost open element, which must have that name.  Quoted
    attribute values are skipped. *)
Inductive scan_mode : Type :=
| InText
| AfterLt                                  (* just after [<] *)
| InDeclaration                            (* inside [<?...?>] *)
| InOpenName (name : string)               (* reading the name of [<name] *)
| InOpenTag (name : string) (slash : bool) (* after the name; last was [/]? *)
| InQuoted (name : string)                 (* inside an attribute value *)
| InCloseName (name : string).             (* reading the name of [</name] *)

Record scan_state : Type := {
  open_elements : list string;   (* innermost first *)
  roots_closed : nat;            (* top-level elements completed *)
  mode : scan_mode
}.

Definition is_char (c : ascii) (lit : string) : bool :=
  match lit with
  | String d EmptyString => Ascii.eqb c d
  | _ => false
  end.

(** Names are collected last character first; only equality matters. *)
Definition scan_step (st : scan_state) (c : ascii) : option scan_state :=
  let stack := open_elements st in
  let set m := Some {| open_elements := stack;
                       roots_closed := roots_closed st; mode := m |} in
  match mode st with
  | InText => if is_char c "<" then set AfterLt else set InText
  | AfterLt =>
      if is_char c "?" then set InDeclaration
      else if is_char c "/" then set (InCloseName "")
      else if is_char c ">" || is_char c " " then None
      else set (InOpenName (String c ""))
  | InDeclaration => if is_char c ">" then set InText else set InDeclaration
  | InOpenName name =>
      if is_char c ">" then
        Some {| open_elements := name :: stack;
                roots_closed := roots_closed st; mode := InText |}
      else if is_char c " " then set (InOpenTag name false)
      else if is_char c "/" then set (InOpenTag name true)
      else set (InOpenName (String c name))
  | InOpenTag name slash =>
      if is_char c ">" then
        if slash then
          Some {| open_elements := stack;
                  roots_closed :=
                    match stack with
                    | [] => S (roots_closed st)
                    | _ => roots_closed st
                    end;
                  mode := InText |}
        else
          Some {| open_elements := name :: stack;
                  roots_closed := roots_closed st; mode := InText |}
      else if Ascii.eqb c dquote then set (InQuoted name)
      else set (InOpenTag name (is_char c "/"))
  | InQuoted name =>
      if Ascii.eqb c dquote then set (InOpenTag name false)
      else set (InQuoted name)
  | InCloseName name =>
      if is_char c ">" then
        match stack with
        | top :: below =>
            if top =? name then
              Some {| open_elements := below;
                      roots_closed :=
                        match below with
                        | [] => S (roots_closed st)
                        | _ => roots_closed st
                        end;
                      mode := InText |}
            else None
        | [] => None
        end
      else set (InCloseName (String c name))
  end.

Fixpoint scan (st : scan_state) (s : string) : option scan_state :=
  match s with
  | EmptyString => Some st
  | String c rest =>
      match scan_step st c with
      | Some st' => scan st' rest
      | None => None
      end
  end.

(** The tags of [s] nest properly and make up exactly one top-level
    element. *)
Definition well_nested (s : string) : bool :=
  match scan {| open_elements := []; roots_closed := 0; mode := InText |} s with
  | Some {| open_elements := []; roots_closed := 1; mode := InText |} => true
  | _ => false
  end.

(** The error [getLocation] throws, under the name the specification
    gives it. *)
Definition LocationUnavailable : js_error :=
  Error "Unable to find your location".

Definition is_number (v : jsvalue) : bool :=
  match v with
  | JNum _ => true
  | _ => false
  end.

(** A coordinate that is not there: absent, [null], [false] or the empty
    string. *)
Definition blank (v : jsvalue) : bool :=
  match v with
  | JUndefined | JNull | JBool false | JStr EmptyString => true
  | _ => false
  end.

(** The resolver's failure rule as the specification words it: the handler
    fails exactly when a coordinate is missing or not a number, and
    otherwise resolves with the pair. *)
Definition fails_iff_not_numeric (ipData : jsvalue) : Prop :=
  forall lat long,
    get_prop ipData "lat" = Returned lat ->
    get_prop ipData "lon" = Returned long ->
    (getLocation_then ipData = Thrown LocationUnavailable
       <-> is_number lat = false \/ is_number long = false) /\
    (is_number lat = true -> is_number long = true ->
     getLocation_then ipData = Returned (JArr [lat; long])).

(** The integer [z] as a double. *)
Definition number (z : Z) : spec_float := binary_normalize 53 1024 z 0 false.

(** The address [getLocation] picks from the walk: its last item. *)
Definition client_address (req : Request) : jsvalue :=
  array_get (proxyaddr_all req) (Z.of_nat (length (proxyaddr_all req)) - 1).

Definition weather_url (host : Host) (req : Request) (lat long : jsvalue)
  : string :=
  WEATHER_LOOKUP_BASE_URL ++ DARKSKY_API_KEY req ++ "/"
    ++ to_string host lat ++ "," ++ to_string host long.

Definition non_2xx (status : Z) : bool :=
  (status <? 200)%Z || (300 <=? status)%Z.

Definition rejected {A : Type} (p : promise A) : bool :=
  match p with
  | Rejected _ => true
  | Fulfilled _ => false
  end.

(** The fetcher's failure rule as the specification words it: the promise
    of [getWeather] is rejected whenever the request fails in transport,
    the status is not 2xx, or the body does not parse. *)
Definition fails_on_bad_exchange (host : Host) (req : Request)
  (lat long : jsvalue) : Prop :=
  forall log,
    match network host (weather_url host req lat long) with
    | NetworkFailure _ =>
        rejected (fst (getWeather host req lat long log)) = true
    | Responded status body =>
        non_2xx status = true \/ JSON_parse host body = None ->
        rejected (fst (getWeather host req lat long log)) = true
    end.

(** ** Scripted hosts *)

Fixpoint lookup {A : Type} (key : string) (table : list (string * A))
  : option A :=
  match table with
  | [] => None
  | (k, a) :: rest => if k =? key then Some a else lookup key rest
  end.

(** A host that answers the listed URLs as listed (any other request fails
    in transport), parses the listed texts as listed (any other text is
    malformed) and prints the two coordinates used below. *)
Definition scripted (answers : list (string * http_outcome))
  (texts : list (string * jsvalue)) : Host :=
  {| network := fun url =>
       match lookup url answers with
       | Some outcome => outcome
       | None => NetworkFailure "ENOTFOUND"
       end;
     JSON_parse := fun body => lookup body texts;
     Number_toString := fun x =>
       if SFeqb x (number 48) then "48"
       else if SFeqb x (number (-122)) then "-122"
       else "NaN" |}.

(** The request as the platform hands it over: no remote address. *)
Definition webtask_request : Request :=
  {| proxyaddr_all := [JUndefined]; DARKSKY_API_KEY := "KEY" |}.

Definition fallback_lookup_url : string :=
  "http://ip-api.com/json/156.74.181.208".

Definition seattle_weather_url : string :=
  "https://api.darksky.net/forecast/KEY/48,-122".

(** ip-api.com placing the fallback address. *)
Definition in_seattle : string := markup "{'lat':48,'lon':-122}".

Definition seattle : jsvalue :=
  JObj [ ("lat", JNum (number 48)); ("lon", JNum (number (-122))) ].

(** ip-api.com failing to place an address. *)
Definition lookup_failed : string := markup "{'status':'fail'}".

(** Dark Sky refusing the key: status 403 and a JSON body. *)
Definition permission_denied : string :=
  markup "{'code':403,'error':'permission denied'}".

Definition forbidden : Host :=
  scripted
    [ (fallback_lookup_url, Responded 200 in_seattle);
      (seattle_weather_url, Responded 403 permission_denied) ]
    [ (in_seattle, seattle);
      (permission_denied,
       JObj [ ("code", JNum (number 403));
              ("error", JStr "permission denied") ]) ].

Definition sunny : Host :=
  scripted
    [ (fallback_lookup_url, Responded 200 in_seattle);
      (seattle_weather_url, Responded 200 "sunny") ]
    [ (in_seattle, seattle); ("sunny", forecast "clear-day") ].

Definition garbled : Host :=
  scripted
    [ (fallback_lookup_url, Responded 200 in_seattle);
      (seattle_weather_url, Responded 200 "<html>") ]
    [ (in_seattle, seattle) ].

Definition nowhere : Host :=
  scripted
    [ (fallback_lookup_url, Responded 200 lookup_failed) ]
    [ (lookup_failed, JObj [ ("status", JStr "fail") ]) ].

Definition unreachable : Host := scripted [] [].

(** ** The pipeline seen from outside *)

(** The URLs requested in a log, in order. *)
Definition gets (log : list event) : list string :=
  flat_map (fun e => match e with HttpGet url => [url] | Warn _ => [] end) log.

(** The URL [getLocation] requests: the last address of the walk when it is
    truthy, the fixed address otherwise. *)
Definition lookup_url (host : Host) (req : Request) : string :=
  IP_LOOKUP_BASE_URL ++
  (if truthy (client_address req)
   then to_string host (client_address req)
   else "156.74.181.208").

(** A promise settled by what a handler did. *)
Definition settle {A : Type} (c : completion A) : promise A :=
  match c with
  | Returned a => Fulfilled a
  | Thrown e => Rejected e
  end.

(** [weather.currently.icon] is there and is a string. *)
Definition icon_is_string (weather : jsvalue) : bool :=
  match icon_of weather with
  | Returned (JStr _) => true
  | _ => false
  end.

(** The codes with a drawing of their own; snow and hail share one. *)
Definition drawn_apart : list string :=
  [ "clear-day"; "clear-night"; "partly-cloudy-day"; "partly-cloudy-night";
    "rain"; "sleet"; "wind" ].

(** A request that came through one trusted proxy. *)
Definition proxied_request : Request :=
  {| proxyaddr_all := [JStr "fd00::1"; JStr "203.0.113.7"];
     DARKSKY_API_KEY := "KEY" |}.

(** A payload whose current conditions carry no icon code. *)
Definition forecast_without_icon : jsvalue :=
  JObj [ ("currently", JObj [ ("summary", JStr "n/a") ]) ].

(** The same refusal under status 200. *)
Definition refused_with_200 : Host :=
  scripted
    [ (fallback_lookup_url, Responded 200 in_seattle);
      (seattle_weather_url, Responded 200 permission_denied) ]
    [ (in_seattle, seattle);
      (permission_denied,
       JObj [ ("code", JNum (number 403));
              ("error", JStr "permission denied") ]) ].

Fixpoint case_literals (cs : list clause) : list string :=
  match cs with
  | [] => []
  | Case lit _ :: rest => lit :: case_literals rest
  | Default _ :: rest => case_literals rest
  end.

(* ================================================================== *)
(** * Facts about text *)

Lemma prefix_iff (frag s : string) :
  prefix frag s = true <-> exists post, s = frag ++ post.
Proof.
  revert s; induction frag as [|a frag IH]; intros s; simpl.
  - split; [intros _; exists s; reflexivity | intros _; destruct s; reflexivity].
  - destruct s as [|b s]; simpl;
      [split; [discriminate | intros [p Hp]; discriminate]|].
    destruct (ascii_dec a b) as [->|Hab].
    + rewrite IH. split; intros [p Hp]; exists p.
      * now rewrite Hp.
      * now inversion Hp.
    + split; [discriminate | intros [p Hp]; inversion Hp; subst; now elim Hab].
Qed.

Lemma contains_iff (frag s : string) :
  contains frag s = true <-> exists pre post, s = pre ++ frag ++ post.
Proof.
  induction s as [|b s IH]; cbn [contains ends_with occurrences].
  - rewrite orb_false_r, prefix_iff. split.
    + intros [p Hp]. exists "", p. exact Hp.
    + intros [pre [post H]]. destruct pre; [exists post; exact H | discriminate].
  - rewrite orb_true_iff, prefix_iff, IH. split.
    + intros [[p Hp] | [pre [post H]]].
      * exists "", p. exact Hp.
      * exists (String b pre), post. cbn [append]. now rewrite H.
    + intros [pre [post H]]. destruct pre as [|c pre].
      * left. exists post. exact H.
      * right. exists pre, post. cbn [append] in H. now inversion H.
Qed.

Lemma ends_with_iff (frag s : string) :
  ends_with frag s = true <-> exists pre, s = pre ++ frag.
Proof.
  induction s as [|b s IH]; cbn [contains ends_with occurrences].
  - rewrite orb_false_r, String.eqb_eq. split.
    + intros <-. exists "". reflexivity.
    + intros [pre H]. destruct pre; [exact H | discriminate].
  - rewrite orb_true_iff, String.eqb_eq, IH. split.
    + intros [<- | [pre H]].
      * exists "". reflexivity.
      * exists (String b pre). cbn [append]. now rewrite H.
    + intros [pre H]. destruct pre as [|c pre].
      * left. exact H.
      * right. exists pre. cbn [append] in H. now inversion H.
Qed.

Lemma occurrences_none (frag s : string) :
  occurrences frag s = 0 <-> contains frag s = false.
Proof.
  induction s as [|b s IH]; cbn [contains ends_with occurrences].
  - destruct (prefix frag ""); simpl; split; (reflexivity || discriminate).
  - destruct (prefix frag (String b s)); simpl.
    + split; discriminate.
    + exact IH.
Qed.

(* ================================================================== *)
(** * Facts about [switch] *)

(** No [case] is entered when the value equals none of the literals. *)
Lemma from_case_miss (v : jsvalue) (cs : list clause) :
  code_in v (case_literals cs) = false -> from_case v cs = None.
Proof.
  induction cs as [|[lit body|body] rest IH]; cbn [case_literals from_case].
  - reflexivity.
  - unfold code_in. cbn [existsb]. intros H.
    apply orb_false_iff in H as [Hlit Hrest].
    rewrite Hlit. exact (IH Hrest).
  - exact IH.
Qed.

(** The first [case] whose literal equals the value is the one entered. *)
Lemma from_case_hit (v : jsvalue) (cs : list clause) :
  code_in v (case_literals cs) = true ->
  exists before lit body rest,
    cs = (before ++ Case lit body :: rest)%list /\
    strict_eq_str v lit = true /\
    code_in v (case_literals before) = false /\
    from_case v cs = Some (Case lit body :: rest).
Proof.
  induction cs as [|[lit body|body] rest IH]; cbn [case_literals from_case].
  - discriminate.
  - destruct (strict_eq_str v lit) eqn:Hlit.
    + intros _. exists [], lit, body, rest. repeat split. exact Hlit.
    + unfold code_in. cbn [existsb]. rewrite Hlit. cbn [orb]. intros H.
      destruct (IH H) as (before & l & b & r & -> & Hl & Hb & Hf).
      exists (Case lit body :: before), l, b, r. repeat split; try assumption.
      unfold code_in. cbn [case_literals existsb]. now rewrite Hlit.
  - intros H. destruct (IH H) as (before & l & b & r & -> & Hl & Hb & Hf).
    exists (Default body :: before), l, b, r. repeat split; assumption.
Qed.

(** A value that is not a string enters no [case]. *)
Lemma strict_eq_str_string (v : jsvalue) (lit : string) :
  strict_eq_str v lit = true <-> v = JStr lit.
Proof.
  destruct v; cbn [strict_eq_str]; try (split; [discriminate | discriminate]).
  rewrite String.eqb_eq. split; [intros -> | intros [= ->]]; reflexivity.
Qed.

Lemma code_in_iff (v : jsvalue) (codes : list string) :
  code_in v codes = true <-> exists lit, In lit codes /\ v = JStr lit.
Proof.
  unfold code_in. rewrite existsb_exists.
  split; intros (lit & Hin & H); exists lit; split; trivial;
    now apply strict_eq_str_string.
Qed.

(* ================================================================== *)
(** * Facts about [getIcon] *)

Lemma getIcon_reads (weather : jsvalue) :
  getIcon weather = let* icon := icon_of weather in Returned (icon_svg icon).
Proof.
  unfold getIcon, icon_of, icon_svg.
  destruct (get_prop weather "currently") as [currently|e]; cbn [bind];
    [destruct (get_prop currently "icon") as [icon|e]|]; reflexivity.
Qed.

Lemma getIcon_of_icon (weather icon : jsvalue) :
  icon_of weather = Returned icon ->
  getIcon weather = Returned (icon_svg icon).
Proof. intros H. rewrite getIcon_reads, H. reflexivity. Qed.

Lemma classify_other (icon : jsvalue) :
  code_in icon enumerated_codes = false <-> classify icon = Other.
Proof.
  unfold code_in, enumerated_codes, classify. cbn [existsb].
  destruct (strict_eq_str icon "clear-day"),
           (strict_eq_str icon "clear-night"),
           (strict_eq_str icon "partly-cloudy-day"),
           (strict_eq_str icon "partly-cloudy-night"),
           (strict_eq_str icon "rain"),
           (strict_eq_str icon "snow"),
           (strict_eq_str icon "hail"),
           (strict_eq_str icon "sleet"),
           (strict_eq_str icon "wind");
    cbn [orb]; split; (reflexivity || discriminate).
Qed.

(** Two values of the same class are drawn alike. *)
Ltac settle_code E :=
  apply strict_eq_str_string in E; subst; vm_compute; reflexivity.

(** [getIcon] draws what the specification's table of layers says. *)
Lemma icon_svg_layers (icon : jsvalue) :
  icon_svg icon = document (layers (classify icon)).
Proof.
  destruct (strict_eq_str icon "clear-day") eqn:E1; [settle_code E1|].
  destruct (strict_eq_str icon "partly-cloudy-day") eqn:E2; [settle_code E2|].
  destruct (strict_eq_str icon "clear-night") eqn:E3; [settle_code E3|].
  destruct (strict_eq_str icon "partly-cloudy-night") eqn:E4; [settle_code E4|].
  destruct (strict_eq_str icon "rain") eqn:E5; [settle_code E5|].
  destruct (strict_eq_str icon "snow") eqn:E6; [settle_code E6|].
  destruct (strict_eq_str icon "hail") eqn:E7; [settle_code E7|].
  destruct (strict_eq_str icon "sleet") eqn:E8; [settle_code E8|].
  destruct (strict_eq_str icon "wind") eqn:E9; [settle_code E9|].
  unfold icon_svg, classify, switch.
  rewrite !from_case_miss
    by (unfold code_in; cbn [case_literals bottom_layer cloud_layer existsb];
        rewrite ?E1, ?E2, ?E3, ?E4, ?E5, ?E6, ?E7, ?E8, ?E9; reflexivity).
  rewrite E1, E2, E3, E4, E5, E6, E7, E8, E9.
  vm_compute. reflexivity.
Qed.

(** Either the value is one of the nine codes, or it equals none. *)
Lemma icon_cases (icon : jsvalue) :
  (exists lit, In lit enumerated_codes /\ icon = JStr lit) \/
  (forall lit, In lit enumerated_codes -> strict_eq_str icon lit = false).
Proof.
  destruct (code_in icon enumerated_codes) eqn:E.
  - left. now apply code_in_iff.
  - right. intros lit Hin. destruct (strict_eq_str icon lit) eqn:Hlit; trivial.
    rewrite <- E. symmetry. apply code_in_iff. exists lit. split; trivial.
    now apply strict_eq_str_string.
Qed.

(** Splits a goal about [icon] into the nine codes, each with [icon]
    replaced by the code, and the case where all nine tests are false. *)
Ltac by_code icon :=
  let lit := fresh "lit" in
  let Hin := fresh "Hin" in
  let Hno := fresh "Hno" in
  destruct (icon_cases icon) as [(lit & Hin & ->) | Hno];
  [ cbn [In enumerated_codes] in Hin;
    repeat (destruct Hin as [<- | Hin]); [.. | contradiction]
  | pose proof (Hno "clear-day" ltac:(cbn; tauto));
    pose proof (Hno "clear-night" ltac:(cbn; tauto));
    pose proof (Hno "partly-cloudy-day" ltac:(cbn; tauto));
    pose proof (Hno "partly-cloudy-night" ltac:(cbn; tauto));
    pose proof (Hno "rain" ltac:(cbn; tauto));
    pose proof (Hno "snow" ltac:(cbn; tauto));
    pose proof (Hno "hail" ltac:(cbn; tauto));
    pose proof (Hno "sleet" ltac:(cbn; tauto));
    pose proof (Hno "wind" ltac:(cbn; tauto)) ].

Lemma icon_svg_other (icon : jsvalue) :
  code_in icon enumerated_codes = false ->
  icon_svg icon = document SVG_CLOUD.
Proof.
  intros H. rewrite icon_svg_layers.
  apply classify_other in H. rewrite H. reflexivity.
Qed.

(* ================================================================== *)
(** * The icon renderer *)

(** C3. For a condition code outside the nine enumerated ones, the SVG that
    [getIcon] returns is header, cloud, credit and closing tag: it contains
    none of the sun, moon, rain, snow and wind fragments, and it contains
    the cloud fragment and the credit text. *)
Theorem unknown_code_cloud_and_credit (weather icon : jsvalue) :
  icon_of weather = Returned icon ->
  code_in icon enumerated_codes = false ->
  exists svg,
    getIcon weather = Returned svg /\
    svg = SVG_HEADER ++ SVG_CLOUD ++ SVG_CREDIT ++ "</svg>" /\
    contains SVG_SUN svg = false /\
    contains SVG_MOON svg = false /\
    contains SVG_RAIN svg = false /\
    contains SVG_SNOW svg = false /\
    contains SVG_WIND svg = false /\
    contains SVG_CLOUD svg = true /\
    contains SVG_CREDIT svg = true.
Proof.
  intros Hicon Hother.
  exists (document SVG_CLOUD). split.
  - rewrite (getIcon_of_icon _ _ Hicon). f_equal. now apply icon_svg_other.
  - vm_compute. repeat split.
Qed.

Lemma unknown_code_cloud_and_credit_fog :
  icon_of (forecast "fog") = Returned (JStr "fog") /\
  code_in (JStr "fog") enumerated_codes = false /\
  exists svg,
    getIcon (forecast "fog") = Returned svg /\
    svg = SVG_HEADER ++ SVG_CLOUD ++ SVG_CREDIT ++ "</svg>" /\
    contains SVG_SUN svg = false /\
    contains SVG_MOON svg = false /\
    contains SVG_RAIN svg = false /\
    contains SVG_SNOW svg = false /\
    contains SVG_WIND svg = false /\
    contains SVG_CLOUD svg = true /\
    contains SVG_CREDIT svg = true.
Proof.
  split; [reflexivity | split; [reflexivity |]].
  apply (unknown_code_cloud_and_credit (forecast "fog") (JStr "fog"));
    reflexivity.
Defined.

(** C4. The SVG that [getIcon] returns contains the cloud fragment unless
    the code is clear-day, clear-night or wind; it contains the opening tag
    of the translating group, and the cloud fragment between that tag and
    a closing tag, exactly for partly-cloudy-day and partly-cloudy-night;
    so for every other code the cloud fragment is there without the group. *)
Theorem cloud_overlay_by_code (weather icon : jsvalue) :
  icon_of weather = Returned icon ->
  exists svg,
    getIcon weather = Returned svg /\
    contains SVG_CLOUD svg
      = negb (code_in icon ["clear-day"; "clear-night"; "wind"]) /\
    contains (GROUP_OPEN ++ SVG_CLOUD ++ "</g>") svg
      = code_in icon ["partly-cloudy-day"; "partly-cloudy-night"] /\
    contains GROUP_OPEN svg
      = code_in icon ["partly-cloudy-day"; "partly-cloudy-night"] /\
    GROUP_OPEN = markup "<g transform='translate(20 50)'>".
Proof.
  intros Hicon. exists (icon_svg icon).
  split; [exact (getIcon_of_icon _ _ Hicon)|].
  clear Hicon weather.
  by_code icon; [vm_compute; repeat split .. |].
  rewrite icon_svg_other
    by (unfold code_in, enumerated_codes; cbn [existsb];
        repeat match goal with E : strict_eq_str _ _ = false |- _ =>
                 rewrite E; clear E end; reflexivity).
  unfold code_in; cbn [existsb].
  repeat match goal with E : strict_eq_str _ _ = false |- _ =>
           rewrite ?E; clear E end.
  vm_compute. repeat split.
Qed.

Lemma cloud_overlay_by_code_partly_cloudy_night :
  icon_of (forecast "partly-cloudy-night")
    = Returned (JStr "partly-cloudy-night") /\
  exists svg,
    getIcon (forecast "partly-cloudy-night") = Returned svg /\
    contains SVG_CLOUD svg = true /\
    contains (GROUP_OPEN ++ SVG_CLOUD ++ "</g>") svg = true /\
    contains GROUP_OPEN svg = true /\
    GROUP_OPEN = markup "<g transform='translate(20 50)'>".
Proof.
  split; [reflexivity|].
  exact (cloud_overlay_by_code (forecast "partly-cloudy-night")
           (JStr "partly-cloudy-night") eq_refl).
Defined.

(** C5. For the code sleet, [getIcon] returns the header, the rain
    fragment, the snow fragment right after it, then the cloud, the credit
    and the closing tag; so the SVG contains both fragments, rain first. *)
Theorem sleet_is_rain_then_snow (weather : jsvalue) :
  icon_of weather = Returned (JStr "sleet") ->
  exists svg,
    getIcon weather = Returned svg /\
    svg = SVG_HEADER ++ (SVG_RAIN ++ SVG_SNOW) ++ SVG_CLOUD
            ++ SVG_CREDIT ++ "</svg>" /\
    contains SVG_RAIN svg = true /\
    contains SVG_SNOW svg = true /\
    contains (SVG_RAIN ++ SVG_SNOW) svg = true.
Proof.
  intros Hicon. eexists. split; [exact (getIcon_of_icon _ _ Hicon)|].
  split; [reflexivity|].
  split; [|split]; apply contains_iff.
  - exists SVG_HEADER, (SVG_SNOW ++ SVG_CLOUD ++ SVG_CREDIT ++ "</svg>").
    reflexivity.
  - exists (SVG_HEADER ++ SVG_RAIN), (SVG_CLOUD ++ SVG_CREDIT ++ "</svg>").
    reflexivity.
  - exists SVG_HEADER, (SVG_CLOUD ++ SVG_CREDIT ++ "</svg>"). reflexivity.
Qed.

Lemma sleet_is_rain_then_snow_forecast :
  icon_of (forecast "sleet") = Returned (JStr "sleet") /\
  exists svg,
    getIcon (forecast "sleet") = Returned svg /\
    svg = SVG_HEADER ++ (SVG_RAIN ++ SVG_SNOW) ++ SVG_CLOUD
            ++ SVG_CREDIT ++ "</svg>" /\
    contains SVG_RAIN svg = true /\
    contains SVG_SNOW svg = true /\
    contains (SVG_RAIN ++ SVG_SNOW) svg = true.
Proof.
  split; [reflexivity|].
  apply (sleet_is_rain_then_snow (forecast "sleet")). reflexivity.
Defined.

(** C6. For every condition code, known or not, what [getIcon] returns is
    a whole SVG document: it starts with the XML declaration, a line break
    and the [<svg>] opening tag whose viewbox is 0 0 200 230, it ends with
    [</svg>], its tags nest properly into that one element, and it
    contains the credit text at exactly one position. *)
Theorem svg_document_shape (weather icon : jsvalue) :
  icon_of weather = Returned icon ->
  exists svg,
    getIcon weather = Returned svg /\
    starts_with (XML_DECLARATION ++ newline ++ SVG_OPEN) svg = true /\
    contains (markup "viewbox='0 0 200 230'") SVG_OPEN = true /\
    ends_with "</svg>" svg = true /\
    well_nested svg = true /\
    occurrences SVG_CREDIT svg = 1.
Proof.
  intros Hicon. exists (icon_svg icon).
  split; [exact (getIcon_of_icon _ _ Hicon)|].
  rewrite icon_svg_layers.
  destruct (classify icon); vm_compute; repeat split.
Qed.

Lemma svg_document_shape_rain :
  icon_of (forecast "rain") = Returned (JStr "rain") /\
  exists svg,
    getIcon (forecast "rain") = Returned svg /\
    starts_with (XML_DECLARATION ++ newline ++ SVG_OPEN) svg = true /\
    contains (markup "viewbox='0 0 200 230'") SVG_OPEN = true /\
    ends_with "</svg>" svg = true /\
    well_nested svg = true /\
    occurrences SVG_CREDIT svg = 1.
Proof.
  split; [reflexivity|].
  exact (svg_document_shape (forecast "rain") (JStr "rain") eq_refl).
Defined.

(** C8. [getIcon] reads nothing of the payload but [currently.icon]: two
    payloads with the same value there get the same SVG text. *)
Theorem icon_depends_on_code_only (w1 w2 icon : jsvalue) :
  icon_of w1 = Returned icon ->
  icon_of w2 = Returned icon ->
  getIcon w1 = getIcon w2.
Proof.
  intros H1 H2.
  rewrite (getIcon_of_icon w1 icon H1), (getIcon_of_icon w2 icon H2).
  reflexivity.
Qed.

Lemma icon_depends_on_code_only_rain :
  icon_of (forecast "rain") = Returned (JStr "rain") /\
  icon_of (JObj [ ("currently",
                   JObj [ ("icon", JStr "rain");
                          ("temperature", JNum (number 51)) ]);
                  ("offset", JNum (number (-8))) ])
    = Returned (JStr "rain") /\
  getIcon (forecast "rain")
    = getIcon (JObj [ ("currently",
                       JObj [ ("icon", JStr "rain");
                              ("temperature", JNum (number 51)) ]);
                      ("offset", JNum (number (-8))) ]).
Proof.
  split; [reflexivity | split; [reflexivity |]].
  apply (icon_depends_on_code_only _ _ (JStr "rain")); reflexivity.
Defined.

(** C9. hail and snow are drawn alike: a payload whose code is hail and a
    payload whose code is snow get the same SVG text. *)
Theorem hail_drawn_as_snow (w1 w2 : jsvalue) :
  icon_of w1 = Returned (JStr "hail") ->
  icon_of w2 = Returned (JStr "snow") ->
  getIcon w1 = getIcon w2.
Proof.
  intros H1 H2.
  rewrite (getIcon_of_icon _ _ H1), (getIcon_of_icon _ _ H2).
  apply (f_equal Returned). rewrite !icon_svg_layers. reflexivity.
Qed.

Lemma hail_drawn_as_snow_forecasts :
  icon_of (forecast "hail") = Returned (JStr "hail") /\
  icon_of (forecast "snow") = Returned (JStr "snow") /\
  getIcon (forecast "hail") = getIcon (forecast "snow").
Proof.
  split; [reflexivity | split; [reflexivity |]].
  apply hail_drawn_as_snow; reflexivity.
Defined.

(** C10. [getIcon] is partial: on a payload with no [currently] to read
    from (the payload or its [currently] is absent or [null]) the read of
    [icon] throws a TypeError and no SVG is returned; on every other
    payload, and so on every payload whose [currently] is an object,
    [getIcon] returns an SVG. *)
Theorem getIcon_needs_currently (weather : jsvalue) :
  (no_currently weather = true -> getIcon weather = Thrown TypeError) /\
  (no_currently weather = false -> exists svg, getIcon weather = Returned svg).
Proof.
  unfold no_currently. rewrite getIcon_reads. unfold icon_of.
  destruct weather as [| |b|x|s|items|props];
    cbn [get_prop bind]; try (split; [reflexivity | discriminate]).
  destruct (own_property "currently" props) as [| |b|x|s|items|inner];
    cbn [get_prop bind]; split;
    solve [ reflexivity | discriminate | intros _; eexists; reflexivity ].
Qed.

Lemma getIcon_needs_currently_both_ways :
  (no_currently (JObj [ ("code", JNum (number 403)) ]) = true /\
   getIcon (JObj [ ("code", JNum (number 403)) ]) = Thrown TypeError) /\
  (no_currently (forecast "wind") = false /\
   exists svg, getIcon (forecast "wind") = Returned svg).
Proof.
  split; (split; [reflexivity |]).
  - apply (proj1 (getIcon_needs_currently _)). reflexivity.
  - apply (proj2 (getIcon_needs_currently _)). reflexivity.
Defined.

(* ================================================================== *)
(** * The address resolver *)

Lemma blank_falsy (v : jsvalue) : blank v = true -> truthy v = false.
Proof.
  destruct v as [| |[|]|x|[|c s]|items|props]; cbn; congruence.
Qed.

(** The handler of [getLocation] throws exactly on a falsy coordinate. *)
Lemma getLocation_then_throws_iff (ipData lat long : jsvalue) :
  get_prop ipData "lat" = Returned lat ->
  get_prop ipData "lon" = Returned long ->
  (getLocation_then ipData = Thrown LocationUnavailable
     <-> truthy lat = false \/ truthy long = false) /\
  (getLocation_then ipData = Returned (JArr [lat; long])
     <-> truthy lat = true /\ truthy long = true).
Proof.
  intros Hlat Hlon. unfold getLocation_then. rewrite Hlat, Hlon. cbn [bind].
  destruct (truthy lat), (truthy long); cbn [negb orb];
    (split; split; intros H);
    solve [ reflexivity | discriminate | auto
          | destruct H; discriminate ].
Qed.

(** Latitude 0 is a number and a place; the handler rejects it. *)
Example equator_rejected :
  getLocation_then (JObj [ ("lat", JNum (number 0)); ("lon", JNum (number 48)) ])
    = Thrown LocationUnavailable.
Proof. reflexivity. Qed.

(** C1, as the specification words it, fails on a response whose
    coordinates are strings: neither is a number, and the handler resolves
    with the pair all the same. *)
Lemma string_coordinates_resolve :
  ~ fails_iff_not_numeric
      (JObj [ ("lat", JStr "47.6062"); ("lon", JStr "-122.3321") ]).
Proof.
  intros claim.
  destruct (claim (JStr "47.6062") (JStr "-122.3321") eq_refl eq_refl)
    as [[_ fails] _].
  specialize (fails (or_introl eq_refl)). discriminate fails.
Qed.

(** C1, amended. The handler of [getLocation] tests the two coordinates
    for truthiness, not for being numbers: it throws the location error
    whenever [lat] or [lon] is absent, [null], [false] or the empty string,
    and it returns the pair [[lat, lon]] unchanged whenever both are
    truthy, numbers or not. *)
Theorem getLocation_then_by_truthiness (ipData lat long : jsvalue) :
  get_prop ipData "lat" = Returned lat ->
  get_prop ipData "lon" = Returned long ->
  (blank lat = true \/ blank long = true ->
   getLocation_then ipData = Thrown LocationUnavailable) /\
  (truthy lat = true -> truthy long = true ->
   getLocation_then ipData = Returned (JArr [lat; long])).
Proof.
  intros Hlat Hlon.
  destruct (getLocation_then_throws_iff ipData lat long Hlat Hlon)
    as [throws returns].
  split.
  - intros [H | H]; apply throws; [left | right]; now apply blank_falsy.
  - intros H1 H2. apply returns. now split.
Qed.

Lemma getLocation_then_by_truthiness_cases :
  (get_prop (JObj [ ("status", JStr "fail"); ("lon", JNum (number (-122))) ])
     "lat" = Returned JUndefined /\
   blank JUndefined = true /\
   getLocation_then
     (JObj [ ("status", JStr "fail"); ("lon", JNum (number (-122))) ])
     = Thrown LocationUnavailable) /\
  (get_prop (JObj [ ("lat", JNum (number 48)); ("lon", JNum (number (-122))) ])
     "lat" = Returned (JNum (number 48)) /\
   truthy (JNum (number 48)) = true /\
   truthy (JNum (number (-122))) = true /\
   getLocation_then
     (JObj [ ("lat", JNum (number 48)); ("lon", JNum (number (-122))) ])
     = Returned (JArr [JNum (number 48); JNum (number (-122))])).
Proof.
  split.
  - split; [reflexivity | split; [reflexivity |]].
    apply (proj1 (getLocation_then_by_truthiness
                    (JObj [ ("status", JStr "fail");
                            ("lon", JNum (number (-122))) ])
                    JUndefined (JNum (number (-122))) eq_refl eq_refl)).
    left. reflexivity.
  - split; [reflexivity | split; [reflexivity | split; [reflexivity |]]].
    apply (proj2 (getLocation_then_by_truthiness
                    (JObj [ ("lat", JNum (number 48));
                            ("lon", JNum (number (-122))) ])
                    (JNum (number 48)) (JNum (number (-122)))
                    eq_refl eq_refl)); reflexivity.
Defined.

(* ================================================================== *)
(** * Requests *)

Section Requests.

Variable host : Host.

(** [requestJSON] makes one GET and settles by what the GET meets and by
    whether the body parses; the status code plays no part. *)
Lemma requestJSON_settles (url : string) (log : list event) :
  requestJSON host url log =
  (match network host url with
   | NetworkFailure code => Rejected (TransportError code)
   | Responded _ body =>
       match JSON_parse host body with
       | Some v => Fulfilled v
       | None => Rejected SyntaxError
       end
   end,
   (log ++ [HttpGet url])%list).
Proof.
  unfold requestJSON, then_, Request_getAsync.
  destruct (network host url) as [code | status body]; [reflexivity|].
  cbn [snd]. destruct (JSON_parse host body); reflexivity.
Qed.

Lemma getWeather_requests (req : Request) (lat long : jsvalue) :
  getWeather host req lat long
  = requestJSON host (weather_url host req lat long).
Proof. reflexivity. Qed.

(** With a falsy last address the lookup goes to the fallback address. *)
Lemma getLocation_fallback (req : Request) (log : list event) :
  truthy (client_address req) = false ->
  getLocation host req log =
  then_ (requestJSON host (IP_LOOKUP_BASE_URL ++ "156.74.181.208"))
        getLocation_then
        (log ++ [Warn "Unable to determine remote IP Address"])%list.
Proof.
  unfold getLocation, client_address. intros H. rewrite H. reflexivity.
Qed.

(** With a truthy last address the lookup goes to that address. *)
Lemma getLocation_client (req : Request) (log : list event) :
  truthy (client_address req) = true ->
  getLocation host req log =
  then_ (requestJSON host
           (IP_LOOKUP_BASE_URL ++ to_string host (client_address req)))
        getLocation_then log.
Proof.
  unfold getLocation, client_address. intros H. rewrite H. reflexivity.
Qed.

Lemma then_log {A B : Type} (t : task A) (f : A -> completion B)
  (log : list event) :
  snd (then_ t f log) = snd (t log).
Proof.
  unfold then_. destruct (t log) as [[a | e] log']; [|reflexivity].
  destruct (f a); reflexivity.
Qed.

End Requests.

(** C2, as the specification words it, fails when Dark Sky refuses the key:
    the status is 403, the body is JSON, and [getWeather] fulfils with the
    parsed body. *)
Lemma forbidden_yet_fulfilled :
  ~ fails_on_bad_exchange forbidden webtask_request
      (JNum (number 48)) (JNum (number (-122))).
Proof.
  intros claim. specialize (claim []).
  vm_compute in claim.
  specialize (claim (or_introl eq_refl)). discriminate claim.
Qed.

(** C2, amended. [getWeather] makes one GET of the weather URL.  Its
    promise is rejected with the transport error when the request fails in
    transport and with the SyntaxError of [JSON.parse] when the body does
    not parse; when the body parses, the promise is fulfilled with the
    parsed payload whatever the status code, which is never read. *)
Theorem getWeather_settles (host : Host) (req : Request) (lat long : jsvalue)
  (log : list event) :
  snd (getWeather host req lat long log)
    = (log ++ [HttpGet (weather_url host req lat long)])%list /\
  (forall code,
     network host (weather_url host req lat long) = NetworkFailure code ->
     fst (getWeather host req lat long log) = Rejected (TransportError code)) /\
  (forall status body,
     network host (weather_url host req lat long) = Responded status body ->
     JSON_parse host body = None ->
     fst (getWeather host req lat long log) = Rejected SyntaxError) /\
  (forall status body payload,
     network host (weather_url host req lat long) = Responded status body ->
     JSON_parse host body = Some payload ->
     fst (getWeather host req lat long log) = Fulfilled payload).
Proof.
  rewrite getWeather_requests, requestJSON_settles. cbn [fst snd].
  split; [reflexivity|].
  split; [|split].
  - intros code ->. reflexivity.
  - intros status body -> ->. reflexivity.
  - intros status body payload -> ->. reflexivity.
Qed.

Lemma getWeather_settles_cases :
  (network unreachable seattle_weather_url = NetworkFailure "ENOTFOUND" /\
   fst (getWeather unreachable webtask_request
          (JNum (number 48)) (JNum (number (-122))) [])
     = Rejected (TransportError "ENOTFOUND")) /\
  (network garbled seattle_weather_url = Responded 200 "<html>" /\
   JSON_parse garbled "<html>" = None /\
   fst (getWeather garbled webtask_request
          (JNum (number 48)) (JNum (number (-122))) [])
     = Rejected SyntaxError) /\
  (network sunny seattle_weather_url = Responded 200 "sunny" /\
   JSON_parse sunny "sunny" = Some (forecast "clear-day") /\
   fst (getWeather sunny webtask_request
          (JNum (number 48)) (JNum (number (-122))) [])
     = Fulfilled (forecast "clear-day")).
Proof.
  split; [|split].
  - split; [reflexivity|].
    apply (proj1 (proj2 (getWeather_settles unreachable webtask_request
                           (JNum (number 48)) (JNum (number (-122))) []))).
    reflexivity.
  - split; [reflexivity | split; [reflexivity|]].
    apply (proj1 (proj2 (proj2
             (getWeather_settles garbled webtask_request
                (JNum (number 48)) (JNum (number (-122))) [])))
             200%Z "<html>"); reflexivity.
  - split; [reflexivity | split; [reflexivity|]].
    apply (proj2 (proj2 (proj2
             (getWeather_settles sunny webtask_request
                (JNum (number 48)) (JNum (number (-122))) [])))
             200%Z "sunny"); reflexivity.
Defined.

(** C7. When the address walk yields no client address (its last item is
    [undefined], or otherwise falsy), [getLocation] warns and makes one
    GET, of the lookup URL for the fixed address 156.74.181.208. *)
Theorem fallback_address_looked_up (host : Host) (req : Request)
  (log : list event) :
  truthy (client_address req) = false ->
  snd (getLocation host req log)
    = (log ++ [ Warn "Unable to determine remote IP Address";
                HttpGet "http://ip-api.com/json/156.74.181.208" ])%list.
Proof.
  intros H. rewrite (getLocation_fallback host req log H).
  rewrite then_log, requestJSON_settles. cbn [snd].
  rewrite <- app_assoc. reflexivity.
Qed.

Lemma fallback_address_looked_up_webtask :
  truthy (client_address webtask_request) = false /\
  snd (getLocation unreachable webtask_request [])
    = [ Warn "Unable to determine remote IP Address";
        HttpGet "http://ip-api.com/json/156.74.181.208" ].
Proof.
  split; [reflexivity|].
  exact (fallback_address_looked_up unreachable webtask_request []
           eq_refl).
Defined.

(* ================================================================== *)
(** * The route, end to end *)

(** A sunny day in Seattle: two GETs, then the sun. *)
Example route_sunny :
  route sunny webtask_request [] =
  (Sent "image/svg+xml" (document SVG_SUN),
   [ Warn "Unable to determine remote IP Address";
     HttpGet fallback_lookup_url;
     HttpGet seattle_weather_url ]).
Proof. vm_compute. reflexivity. Qed.

(** A failed lookup ends the request before any weather request. *)
Example route_nowhere :
  route nowhere webtask_request [] =
  (Next LocationUnavailable,
   [ Warn "Unable to determine remote IP Address";
     HttpGet fallback_lookup_url ]).
Proof. vm_compute. reflexivity. Qed.

(** A refused key gets as far as [getIcon], which finds no [currently]. *)
Example route_forbidden :
  route forbidden webtask_request [] =
  (Next TypeError,
   [ Warn "Unable to determine remote IP Address";
     HttpGet fallback_lookup_url;
     HttpGet seattle_weather_url ]).
Proof. vm_compute. reflexivity. Qed.

(* ================================================================== *)
(** * More on the icon renderer *)

(** X1. [getIcon] draws by the table [layers]: for every payload whose
    [currently.icon] can be read, the result is the header, the layers of
    the code's condition, the credit and the closing tag. *)
Theorem getIcon_draws_table (weather icon : jsvalue) :
  icon_of weather = Returned icon ->
  getIcon weather
    = Returned (SVG_HEADER ++ layers (classify icon) ++ SVG_CREDIT ++ "</svg>").
Proof.
  intros Hicon. rewrite (getIcon_of_icon _ _ Hicon).
  apply (f_equal Returned). exact (icon_svg_layers icon).
Qed.

Lemma getIcon_draws_table_partly_cloudy_day :
  icon_of (forecast "partly-cloudy-day") = Returned (JStr "partly-cloudy-day") /\
  getIcon (forecast "partly-cloudy-day")
    = Returned (SVG_HEADER
                ++ (SVG_SUN ++ GROUP_OPEN ++ SVG_CLOUD ++ "</g>")
                ++ SVG_CREDIT ++ "</svg>").
Proof.
  split; [reflexivity|].
  exact (getIcon_draws_table (forecast "partly-cloudy-day")
           (JStr "partly-cloudy-day") eq_refl).
Defined.

(** Rewrites the nine tests on an unknown [icon] away. *)
Ltac unknown_code :=
  unfold code_in; cbn [existsb map drawn_apart];
  repeat match goal with
         | E : strict_eq_str _ _ = false |- _ => rewrite ?E; clear E
         end.

Lemma icon_svg_unknown (icon : jsvalue) :
  (forall lit, In lit enumerated_codes -> strict_eq_str icon lit = false) ->
  icon_svg icon = document SVG_CLOUD.
Proof.
  intros Hno. apply icon_svg_other.
  destruct (code_in icon enumerated_codes) eqn:E; [|reflexivity].
  apply code_in_iff in E as (lit & Hin & ->).
  specialize (Hno lit Hin). cbn [strict_eq_str] in Hno.
  now rewrite String.eqb_refl in Hno.
Qed.

(** X2. Which base layer the SVG contains: the sun for clear-day and
    partly-cloudy-day, the moon for clear-night and partly-cloudy-night,
    rain for rain and sleet, snow for snow, hail and sleet, wind for wind,
    and none of them for any other code. *)
Theorem base_layer_by_code (weather icon : jsvalue) :
  icon_of weather = Returned icon ->
  exists svg,
    getIcon weather = Returned svg /\
    contains SVG_SUN svg
      = code_in icon ["clear-day"; "partly-cloudy-day"] /\
    contains SVG_MOON svg
      = code_in icon ["clear-night"; "partly-cloudy-night"] /\
    contains SVG_RAIN svg = code_in icon ["rain"; "sleet"] /\
    contains SVG_SNOW svg = code_in icon ["snow"; "hail"; "sleet"] /\
    contains SVG_WIND svg = code_in icon ["wind"].
Proof.
  intros Hicon. exists (icon_svg icon).
  split; [exact (getIcon_of_icon _ _ Hicon)|].
  clear Hicon weather.
  by_code icon; [vm_compute; repeat split .. |].
  rewrite (icon_svg_unknown icon Hno). unknown_code.
  vm_compute. repeat split.
Qed.

Lemma base_layer_by_code_hail :
  icon_of (forecast "hail") = Returned (JStr "hail") /\
  exists svg,
    getIcon (forecast "hail") = Returned svg /\
    contains SVG_SUN svg = false /\
    contains SVG_MOON svg = false /\
    contains SVG_RAIN svg = false /\
    contains SVG_SNOW svg = true /\
    contains SVG_WIND svg = false.
Proof.
  split; [reflexivity|].
  exact (base_layer_by_code (forecast "hail") (JStr "hail") eq_refl).
Defined.

(** Two documents that differ are told apart by comparing them. *)
Lemma differ (s1 s2 : string) : (s1 =? s2) = false -> s1 <> s2.
Proof. intros H. now apply String.eqb_neq. Qed.

(** Settles one pair of codes: either both sides hold by computation, or
    both fail, the drawings by comparison and the tests by their values. *)
Ltac same_or_apart :=
  first
    [ split; [ intros _; vm_compute; split; reflexivity
             | intros _; reflexivity ]
    | split;
      [ intros H; exfalso; revert H; apply differ; vm_compute; reflexivity
      | intros [H1 H2]; exfalso; vm_compute in H1, H2;
        first [ discriminate H1 | discriminate H2 ] ] ].

(** X3. Two readable codes get the same SVG exactly when they are the same
    condition, snow and hail counting as one: the drawings of clear-day,
    clear-night, partly-cloudy-day, partly-cloudy-night, rain, sleet, wind,
    snow-or-hail and of all other codes together are nine different
    texts. *)
Theorem same_drawing_iff_same_condition (w1 w2 i1 i2 : jsvalue) :
  icon_of w1 = Returned i1 ->
  icon_of w2 = Returned i2 ->
  getIcon w1 = getIcon w2 <->
  map (strict_eq_str i1) drawn_apart = map (strict_eq_str i2) drawn_apart /\
  code_in i1 ["snow"; "hail"] = code_in i2 ["snow"; "hail"].
Proof.
  intros H1 H2.
  rewrite (getIcon_of_icon _ _ H1), (getIcon_of_icon _ _ H2).
  clear H1 H2 w1 w2.
  assert (Hinj : forall s1 s2 : string,
             @Returned string s1 = Returned s2 <-> s1 = s2)
    by (intros s1 s2; split; [intros [= ->] | intros ->]; reflexivity).
  rewrite Hinj. clear Hinj.
  by_code i1.
  10: rewrite (icon_svg_unknown i1 Hno); unknown_code; clear Hno.
  all: by_code i2.
  all: try (rewrite (icon_svg_unknown i2 Hno); unknown_code; clear Hno).
  all: same_or_apart.
Qed.

Lemma same_drawing_iff_same_condition_rain_sleet :
  icon_of (forecast "rain") = Returned (JStr "rain") /\
  icon_of (forecast "sleet") = Returned (JStr "sleet") /\
  getIcon (forecast "rain") <> getIcon (forecast "sleet").
Proof.
  split; [reflexivity | split; [reflexivity |]].
  intros same.
  destruct (proj1 (same_drawing_iff_same_condition
                     (forecast "rain") (forecast "sleet")
                     (JStr "rain") (JStr "sleet") eq_refl eq_refl) same)
    as [apart _].
  vm_compute in apart. discriminate apart.
Defined.

(** X4. A payload that has a [currently] but no string under
    [currently.icon] (no such property, or a value of another type) is
    drawn like an unknown code: header, cloud, credit, closing tag. *)
Theorem no_icon_code_draws_cloud (weather : jsvalue) :
  no_currently weather = false ->
  icon_is_string weather = false ->
  getIcon weather
    = Returned (SVG_HEADER ++ SVG_CLOUD ++ SVG_CREDIT ++ "</svg>").
Proof.
  unfold no_currently, icon_is_string. rewrite getIcon_reads.
  unfold icon_of.
  destruct (get_prop weather "currently") as [currently|e];
    cbn [bind]; [|discriminate].
  intros Hcur Hstr.
  destruct (get_prop currently "icon") as [icon|e] eqn:Hicon.
  - cbn [bind]. apply (f_equal Returned).
    apply icon_svg_unknown. intros lit _.
    destruct icon; try reflexivity. discriminate Hstr.
  - destruct currently; try discriminate Hcur; discriminate Hicon.
Qed.

Lemma no_icon_code_draws_cloud_summary_only :
  no_currently forecast_without_icon = false /\
  icon_is_string forecast_without_icon = false /\
  getIcon forecast_without_icon
    = Returned (SVG_HEADER ++ SVG_CLOUD ++ SVG_CREDIT ++ "</svg>").
Proof.
  split; [reflexivity | split; [reflexivity |]].
  apply (no_icon_code_draws_cloud forecast_without_icon); reflexivity.
Defined.

(* ================================================================== *)
(** * More on the address resolver *)

(** X5. The handler of [getLocation] throws the location error exactly when
    [lat] or [lon] is falsy, and returns the pair exactly when both are
    truthy.  A coordinate that is the number 0 is falsy: a place on the
    equator or on the prime meridian is rejected. *)
Theorem falsy_coordinate_rejected (ipData lat long : jsvalue) :
  get_prop ipData "lat" = Returned lat ->
  get_prop ipData "lon" = Returned long ->
  (getLocation_then ipData = Thrown (Error "Unable to find your location")
     <-> truthy lat = false \/ truthy long = false) /\
  (getLocation_then ipData = Returned (JArr [lat; long])
     <-> truthy lat = true /\ truthy long = true) /\
  (forall sign, lat = JNum (S754_zero sign) \/ long = JNum (S754_zero sign) ->
     getLocation_then ipData = Thrown (Error "Unable to find your location")).
Proof.
  intros Hlat Hlon.
  destruct (getLocation_then_throws_iff ipData lat long Hlat Hlon)
    as [throws returns].
  split; [exact throws | split; [exact returns |]].
  intros sign [-> | ->]; apply throws; [left | right]; reflexivity.
Qed.

Lemma falsy_coordinate_rejected_greenwich :
  get_prop (JObj [ ("lat", JNum (number 51)); ("lon", JNum (number 0)) ]) "lat"
    = Returned (JNum (number 51)) /\
  get_prop (JObj [ ("lat", JNum (number 51)); ("lon", JNum (number 0)) ]) "lon"
    = Returned (JNum (S754_zero false)) /\
  getLocation_then
    (JObj [ ("lat", JNum (number 51)); ("lon", JNum (number 0)) ])
    = Thrown (Error "Unable to find your location").
Proof.
  split; [reflexivity | split; [reflexivity |]].
  apply (proj2 (proj2 (falsy_coordinate_rejected
                         (JObj [ ("lat", JNum (number 51));
                                 ("lon", JNum (number 0)) ])
                         (JNum (number 51)) (JNum (S754_zero false))
                         eq_refl eq_refl)) false).
  right. reflexivity.
Defined.

(** X6. A lookup response that parses to something other than an object:
    [null] makes the handler throw a TypeError (the read of [lat] fails);
    a number, a string, a boolean or an array has no [lat] and makes it
    throw the location error. *)
Theorem non_object_response_rejected (ipData : jsvalue) :
  match ipData with
  | JObj _ => True
  | JUndefined | JNull => getLocation_then ipData = Thrown TypeError
  | _ => getLocation_then ipData = Thrown LocationUnavailable
  end.
Proof. destruct ipData; exact I || reflexivity. Qed.

(** What [getLocation] does, in one equation. *)
Lemma getLocation_run (host : Host) (req : Request) (log : list event) :
  getLocation host req log =
  (match network host (lookup_url host req) with
   | NetworkFailure code => Rejected (TransportError code)
   | Responded _ body =>
       match JSON_parse host body with
       | Some ipData => settle (getLocation_then ipData)
       | None => Rejected SyntaxError
       end
   end,
   (log ++ (if truthy (client_address req) then []
            else [Warn "Unable to determine remote IP Address"])
        ++ [HttpGet (lookup_url host req)])%list).
Proof.
  unfold lookup_url.
  destruct (truthy (client_address req)) eqn:Haddr.
  - rewrite (getLocation_client host req log Haddr).
    unfold then_. rewrite requestJSON_settles.
    destruct (network host _) as [code | status body]; [reflexivity|].
    destruct (JSON_parse host body) as [ipData|]; [|reflexivity].
    destruct (getLocation_then ipData); reflexivity.
  - rewrite (getLocation_fallback host req log Haddr).
    unfold then_. rewrite requestJSON_settles, <- app_assoc.
    destruct (network host _) as [code | status body]; [reflexivity|].
    destruct (JSON_parse host body) as [ipData|]; [|reflexivity].
    destruct (getLocation_then ipData); reflexivity.
Qed.

(** X7. How [getLocation] settles.  It is rejected with the transport error
    when the lookup request fails in transport and with the SyntaxError of
    [JSON.parse] when the body does not parse; when the body parses, the
    promise settles as the handler decides on the parsed value, whatever
    the status code of the response. *)
Theorem getLocation_settles (host : Host) (req : Request) (log : list event) :
  (forall code,
     network host (lookup_url host req) = NetworkFailure code ->
     fst (getLocation host req log) = Rejected (TransportError code)) /\
  (forall status body,
     network host (lookup_url host req) = Responded status body ->
     JSON_parse host body = None ->
     fst (getLocation host req log) = Rejected SyntaxError) /\
  (forall status body ipData,
     network host (lookup_url host req) = Responded status body ->
     JSON_parse host body = Some ipData ->
     fst (getLocation host req log) = settle (getLocation_then ipData)).
Proof.
  rewrite getLocation_run. cbn [fst].
  split; [|split].
  - intros code ->. reflexivity.
  - intros status body -> ->. reflexivity.
  - intros status body ipData -> ->. reflexivity.
Qed.

Lemma getLocation_settles_cases :
  (network unreachable (lookup_url unreachable webtask_request)
     = NetworkFailure "ENOTFOUND" /\
   fst (getLocation unreachable webtask_request [])
     = Rejected (TransportError "ENOTFOUND")) /\
  (network nowhere (lookup_url nowhere webtask_request)
     = Responded 200 lookup_failed /\
   JSON_parse nowhere lookup_failed = Some (JObj [ ("status", JStr "fail") ]) /\
   fst (getLocation nowhere webtask_request [])
     = Rejected LocationUnavailable) /\
  (network sunny (lookup_url sunny webtask_request)
     = Responded 200 in_seattle /\
   JSON_parse sunny in_seattle = Some seattle /\
   fst (getLocation sunny webtask_request [])
     = Fulfilled (JArr [JNum (number 48); JNum (number (-122))])).
Proof.
  split; [|split].
  - split; [reflexivity|].
    apply (proj1 (getLocation_settles unreachable webtask_request [])).
    reflexivity.
  - split; [reflexivity | split; [reflexivity|]].
    exact (proj2 (proj2 (getLocation_settles nowhere webtask_request []))
             200%Z lookup_failed (JObj [ ("status", JStr "fail") ])
             eq_refl eq_refl).
  - split; [reflexivity | split; [reflexivity|]].
    exact (proj2 (proj2 (getLocation_settles sunny webtask_request []))
             200%Z in_seattle seattle eq_refl eq_refl).
Defined.

(** A fulfilled [getLocation] traced back to the response it read. *)
Lemma getLocation_fulfilled_inv (host : Host) (req : Request)
  (log : list event) (v : jsvalue) :
  fst (getLocation host req log) = Fulfilled v ->
  exists status body ipData lat long,
    network host (lookup_url host req) = Responded status body /\
    JSON_parse host body = Some ipData /\
    get_prop ipData "lat" = Returned lat /\
    get_prop ipData "lon" = Returned long /\
    truthy lat = true /\ truthy long = true /\
    v = JArr [lat; long].
Proof.
  rewrite getLocation_run. cbn [fst].
  destruct (network host (lookup_url host req)) as [code | status body]
    eqn:Hnet; [discriminate|].
  destruct (JSON_parse host body) as [ipData|] eqn:Hparse; [|discriminate].
  unfold getLocation_then.
  destruct (get_prop ipData "lat") as [lat|e] eqn:Hlat; cbn [bind settle];
    [|discriminate].
  destruct (get_prop ipData "lon") as [long|e] eqn:Hlon; cbn [bind settle];
    [|discriminate].
  destruct (truthy lat) eqn:Tlat, (truthy long) eqn:Tlong;
    cbn [negb orb settle]; try discriminate.
  intros [= <-]. exists status, body, ipData, lat, long.
  repeat split; assumption.
Qed.

(** X8. What [getLocation] fulfils with is always an array of exactly two
    truthy values, the [lat] and the [lon] of the parsed response. *)
Theorem getLocation_fulfils_with_pair (host : Host) (req : Request)
  (log : list event) (v : jsvalue) :
  fst (getLocation host req log) = Fulfilled v ->
  exists status body ipData lat long,
    network host (lookup_url host req) = Responded status body /\
    JSON_parse host body = Some ipData /\
    get_prop ipData "lat" = Returned lat /\
    get_prop ipData "lon" = Returned long /\
    truthy lat = true /\ truthy long = true /\
    v = JArr [lat; long].
Proof. exact (getLocation_fulfilled_inv host req log v). Qed.

Lemma getLocation_fulfils_with_pair_seattle :
  fst (getLocation sunny webtask_request [])
    = Fulfilled (JArr [JNum (number 48); JNum (number (-122))]) /\
  exists status body ipData lat long,
    network sunny (lookup_url sunny webtask_request) = Responded status body /\
    JSON_parse sunny body = Some ipData /\
    get_prop ipData "lat" = Returned lat /\
    get_prop ipData "lon" = Returned long /\
    truthy lat = true /\ truthy long = true /\
    JArr [JNum (number 48); JNum (number (-122))] = JArr [lat; long].
Proof.
  split; [reflexivity|].
  exact (getLocation_fulfils_with_pair sunny webtask_request [] _ eq_refl).
Defined.

(** [ip[ip.length - 1]] is the last item of a walk that has one. *)
Lemma client_address_last (req : Request) (before : list jsvalue)
  (a : jsvalue) :
  proxyaddr_all req = (before ++ [a])%list -> client_address req = a.
Proof.
  unfold client_address, array_get. intros ->.
  rewrite length_app. cbn [length].
  rewrite Nat.add_1_r, Nat2Z.inj_succ, Z.sub_1_r, Z.pred_succ.
  destruct (Z.ltb_spec (Z.of_nat (length before)) 0) as [Hneg|_].
  - exfalso. exact (proj1 (Z.lt_nge _ _) Hneg (Nat2Z.is_nonneg _)).
  - rewrite Nat2Z.id. apply nth_middle.
Qed.

(** X9. When the address walk ends in a non-empty address, [getLocation]
    looks that one up, whatever the addresses before it: it makes one GET,
    of the lookup URL followed by that address, and does not warn. *)
Theorem last_address_looked_up (host : Host) (req : Request)
  (log : list event) (before : list jsvalue) (addr : string) :
  proxyaddr_all req = (before ++ [JStr addr])%list ->
  (addr =? "") = false ->
  snd (getLocation host req log)
    = (log ++ [HttpGet ("http://ip-api.com/json/" ++ addr)])%list.
Proof.
  intros Hwalk Haddr.
  pose proof (client_address_last req before (JStr addr) Hwalk) as Hlast.
  rewrite getLocation_run. cbn [snd]. unfold lookup_url.
  rewrite Hlast. cbn [truthy to_string]. rewrite Haddr. reflexivity.
Qed.

Lemma last_address_looked_up_proxied :
  proxyaddr_all proxied_request
    = ([JStr "fd00::1"] ++ [JStr "203.0.113.7"])%list /\
  ("203.0.113.7" =? "") = false /\
  snd (getLocation unreachable proxied_request [])
    = [HttpGet "http://ip-api.com/json/203.0.113.7"].
Proof.
  split; [reflexivity | split; [reflexivity |]].
  exact (last_address_looked_up unreachable proxied_request []
           [JStr "fd00::1"] "203.0.113.7" eq_refl eq_refl).
Defined.

(** X10. An empty address walk has no last item: [ip[-1]] is [undefined],
    and [getLocation] warns and looks the fixed address up. *)
Theorem empty_walk_falls_back (host : Host) (req : Request)
  (log : list event) :
  proxyaddr_all req = [] ->
  snd (getLocation host req log)
    = (log ++ [ Warn "Unable to determine remote IP Address";
                HttpGet "http://ip-api.com/json/156.74.181.208" ])%list.
Proof.
  intros Hwalk. rewrite getLocation_run. cbn [snd].
  unfold lookup_url, client_address. rewrite Hwalk. reflexivity.
Qed.

Lemma empty_walk_falls_back_no_addresses :
  proxyaddr_all {| proxyaddr_all := []; DARKSKY_API_KEY := "KEY" |} = [] /\
  snd (getLocation unreachable
         {| proxyaddr_all := []; DARKSKY_API_KEY := "KEY" |} [])
    = [ Warn "Unable to determine remote IP Address";
        HttpGet "http://ip-api.com/json/156.74.181.208" ].
Proof.
  split; [reflexivity|].
  exact (empty_walk_falls_back unreachable
           {| proxyaddr_all := []; DARKSKY_API_KEY := "KEY" |} [] eq_refl).
Defined.

(** X11. The Dark Sky key plays no part in the address lookup: two requests
    with the same address walk make the same lookup request and settle
    alike, whatever their keys. *)
Theorem lookup_ignores_key (host : Host) (r1 r2 : Request)
  (log : list event) :
  proxyaddr_all r1 = proxyaddr_all r2 ->
  getLocation host r1 log = getLocation host r2 log.
Proof.
  intros Hwalk. rewrite !getLocation_run.
  unfold lookup_url, client_address. rewrite Hwalk. reflexivity.
Qed.

Lemma lookup_ignores_key_two_keys :
  proxyaddr_all webtask_request
    = proxyaddr_all {| proxyaddr_all := [JUndefined];
                       DARKSKY_API_KEY := "ANOTHER-KEY" |} /\
  getLocation sunny webtask_request []
    = getLocation sunny {| proxyaddr_all := [JUndefined];
                           DARKSKY_API_KEY := "ANOTHER-KEY" |} [].
Proof.
  split; [reflexivity|].
  exact (lookup_ignores_key sunny webtask_request
           {| proxyaddr_all := [JUndefined];
              DARKSKY_API_KEY := "ANOTHER-KEY" |} [] eq_refl).
Defined.

(* ================================================================== *)
(** * The route *)

Lemma gets_app (l1 l2 : list event) :
  gets (l1 ++ l2) = (gets l1 ++ gets l2)%list.
Proof. apply flat_map_app. Qed.

Lemma getLocation_gets (host : Host) (req : Request) (log : list event) :
  gets (snd (getLocation host req log))
    = (gets log ++ [lookup_url host req])%list.
Proof.
  rewrite getLocation_run. cbn [snd]. rewrite !gets_app.
  destruct (truthy (client_address req)); reflexivity.
Qed.

Lemma getWeather_gets (host : Host) (req : Request) (lat long : jsvalue)
  (log : list event) :
  gets (snd (getWeather host req lat long log))
    = (gets log ++ [weather_url host req lat long])%list.
Proof.
  rewrite getWeather_requests, requestJSON_settles. cbn [snd].
  rewrite gets_app. reflexivity.
Qed.

(** The route, stage by stage. *)
Lemma route_run (host : Host) (req : Request) (log : list event) :
  route host req log =
  match fst (getLocation host req log) with
  | Rejected e => (Next e, snd (getLocation host req log))
  | Fulfilled (JArr items) =>
      let lat := nth 0 items JUndefined in
      let long := nth 1 items JUndefined in
      let fetched :=
        getWeather host req lat long (snd (getLocation host req log)) in
      match fst fetched with
      | Rejected e => (Next e, snd fetched)
      | Fulfilled weatherData =>
          (match getIcon weatherData with
           | Returned body => Sent "image/svg+xml" body
           | Thrown e => Next e
           end, snd fetched)
      end
  | Fulfilled _ => (Next TypeError, snd (getLocation host req log))
  end.
Proof.
  unfold route, then_, spread, and_then.
  destruct (getLocation host req log) as [[v | e] log1]; cbn [fst snd];
    [|reflexivity].
  destruct v as [| |b|x|s|items|props]; try reflexivity.
  cbn zeta.
  destruct (getWeather host req (nth 0 items JUndefined)
              (nth 1 items JUndefined) log1) as [[weatherData | e] log2];
    cbn [fst snd]; [|reflexivity].
  destruct (getIcon weatherData); reflexivity.
Qed.

(** X12. When the address lookup is rejected, the route ends with
    [next(err)] on that very error, and the lookup is the only request
    made: the weather service is never called. *)
Theorem route_stops_at_failed_lookup (host : Host) (req : Request)
  (log : list event) (e : js_error) :
  fst (getLocation host req log) = Rejected e ->
  fst (route host req log) = Next e /\
  gets (snd (route host req log)) = (gets log ++ [lookup_url host req])%list.
Proof.
  intros Hloc. rewrite route_run, Hloc. cbn [fst snd].
  split; [reflexivity | apply getLocation_gets].
Qed.

Lemma route_stops_at_failed_lookup_nowhere :
  fst (getLocation nowhere webtask_request []) = Rejected LocationUnavailable /\
  fst (route nowhere webtask_request []) = Next LocationUnavailable /\
  gets (snd (route nowhere webtask_request []))
    = ["http://ip-api.com/json/156.74.181.208"].
Proof.
  split; [reflexivity|].
  exact (route_stops_at_failed_lookup nowhere webtask_request []
           LocationUnavailable eq_refl).
Defined.

(** X13. Once the lookup is fulfilled with a pair, the route asks Dark Sky
    for that pair and ends by the first stage that fails: [next(err)] on
    the rejection of [getWeather], else [next(err)] on what [getIcon]
    throws, else the SVG of [getIcon] sent as [image/svg+xml]. *)
Theorem route_after_lookup (host : Host) (req : Request) (log : list event)
  (lat long : jsvalue) :
  fst (getLocation host req log) = Fulfilled (JArr [lat; long]) ->
  gets (snd (route host req log))
    = (gets log ++ [lookup_url host req; weather_url host req lat long])%list /\
  (forall e,
     fst (getWeather host req lat long (snd (getLocation host req log)))
       = Rejected e ->
     fst (route host req log) = Next e) /\
  (forall weatherData e,
     fst (getWeather host req lat long (snd (getLocation host req log)))
       = Fulfilled weatherData ->
     getIcon weatherData = Thrown e ->
     fst (route host req log) = Next e) /\
  (forall weatherData body,
     fst (getWeather host req lat long (snd (getLocation host req log)))
       = Fulfilled weatherData ->
     getIcon weatherData = Returned body ->
     fst (route host req log) = Sent "image/svg+xml" body).
Proof.
  intros Hloc. rewrite route_run, Hloc. cbn [nth]. cbn zeta.
  split.
  - assert (Hgets :
      gets (snd (getWeather host req lat long (snd (getLocation host req log))))
        = (gets log ++ [lookup_url host req; weather_url host req lat long])%list).
    { rewrite getWeather_gets, getLocation_gets, <- app_assoc. reflexivity. }
    destruct (fst (getWeather host req lat long
                     (snd (getLocation host req log)))); exact Hgets.
  - split; [|split].
    + intros e ->. reflexivity.
    + intros weatherData e -> ->. reflexivity.
    + intros weatherData body -> ->. reflexivity.
Qed.

Lemma route_after_lookup_cases :
  fst (getLocation garbled webtask_request [])
    = Fulfilled (JArr [JNum (number 48); JNum (number (-122))]) /\
  fst (getLocation forbidden webtask_request [])
    = Fulfilled (JArr [JNum (number 48); JNum (number (-122))]) /\
  fst (getLocation sunny webtask_request [])
    = Fulfilled (JArr [JNum (number 48); JNum (number (-122))]) /\
  gets (snd (route sunny webtask_request []))
    = [fallback_lookup_url; seattle_weather_url] /\
  fst (route garbled webtask_request []) = Next SyntaxError /\
  fst (route forbidden webtask_request []) = Next TypeError /\
  fst (route sunny webtask_request [])
    = Sent "image/svg+xml" (document SVG_SUN).
Proof.
  split; [reflexivity | split; [reflexivity | split; [reflexivity |]]].
  split; [|split; [|split]].
  - exact (proj1 (route_after_lookup sunny webtask_request []
                    (JNum (number 48)) (JNum (number (-122))) eq_refl)).
  - exact (proj1 (proj2 (route_after_lookup garbled webtask_request []
                           (JNum (number 48)) (JNum (number (-122))) eq_refl))
             SyntaxError eq_refl).
  - exact (proj1 (proj2 (proj2
             (route_after_lookup forbidden webtask_request []
                (JNum (number 48)) (JNum (number (-122))) eq_refl)))
             (JObj [ ("code", JNum (number 403));
                     ("error", JStr "permission denied") ])
             TypeError eq_refl eq_refl).
  - exact (proj2 (proj2 (proj2
             (route_after_lookup sunny webtask_request []
                (JNum (number 48)) (JNum (number (-122))) eq_refl)))
             (forecast "clear-day") (document SVG_SUN) eq_refl eq_refl).
Defined.

(** A sent reply traced back through the three stages. *)
Lemma route_sent_inv (host : Host) (req : Request) (log : list event)
  (contentType body : string) :
  fst (route host req log) = Sent contentType body ->
  contentType = "image/svg+xml" /\
  exists lat long weatherData,
    fst (getLocation host req log) = Fulfilled (JArr [lat; long]) /\
    fst (getWeather host req lat long (snd (getLocation host req log)))
      = Fulfilled weatherData /\
    getIcon weatherData = Returned body.
Proof.
  rewrite route_run.
  destruct (fst (getLocation host req log)) as [v | e] eqn:Hloc;
    [|discriminate].
  destruct (getLocation_fulfilled_inv host req log v Hloc)
    as (status & text & ipData & lat & long & _ & _ & _ & _ & _ & _ & ->).
  cbn [nth]. cbn zeta.
  destruct (fst (getWeather host req lat long
                   (snd (getLocation host req log))))
    as [weatherData | e] eqn:Hwx; cbn [fst]; [|discriminate].
  destruct (getIcon weatherData) as [svg | e] eqn:Hsvg; [|discriminate].
  intros [= <- <-]. split; [reflexivity|].
  exists lat, long, weatherData. repeat split; assumption.
Qed.

(** X14. The route sends a body only when all three stages succeeded: the
    lookup was fulfilled with a pair, the weather request for that pair
    was fulfilled, and the body is what [getIcon] returned for its
    payload; the content type is then [image/svg+xml] and exactly two
    requests were made. *)
Theorem route_sends_only_on_success (host : Host) (req : Request)
  (log : list event) (contentType body : string) :
  fst (route host req log) = Sent contentType body ->
  contentType = "image/svg+xml" /\
  exists lat long weatherData,
    fst (getLocation host req log) = Fulfilled (JArr [lat; long]) /\
    fst (getWeather host req lat long (snd (getLocation host req log)))
      = Fulfilled weatherData /\
    getIcon weatherData = Returned body /\
    gets (snd (route host req log))
      = (gets log ++ [lookup_url host req;
                      weather_url host req lat long])%list.
Proof.
  intros Hsent.
  destruct (route_sent_inv host req log contentType body Hsent)
    as (Htype & lat & long & weatherData & Hloc & Hwx & Hsvg).
  split; [exact Htype|].
  exists lat, long, weatherData. repeat split; try assumption.
  rewrite route_run, Hloc. cbn [nth]. cbn zeta. rewrite Hwx. cbn [snd].
  rewrite getWeather_gets, getLocation_gets, <- app_assoc. reflexivity.
Qed.

Lemma route_sends_only_on_success_sunny :
  fst (route sunny webtask_request [])
    = Sent "image/svg+xml" (document SVG_SUN) /\
  exists lat long weatherData,
    fst (getLocation sunny webtask_request []) = Fulfilled (JArr [lat; long]) /\
    fst (getWeather sunny webtask_request lat long
           (snd (getLocation sunny webtask_request [])))
      = Fulfilled weatherData /\
    getIcon weatherData = Returned (document SVG_SUN) /\
    gets (snd (route sunny webtask_request []))
      = ([] ++ [lookup_url sunny webtask_request;
                weather_url sunny webtask_request lat long])%list.
Proof.
  split; [reflexivity|].
  exact (proj2 (route_sends_only_on_success sunny webtask_request []
                  "image/svg+xml" (document SVG_SUN) eq_refl)).
Defined.

(** Whatever [getIcon] returns is a whole document. *)
Lemma getIcon_returned_shape (weather : jsvalue) (body : string) :
  getIcon weather = Returned body ->
  starts_with SVG_HEADER body = true /\
  ends_with "</svg>" body = true /\
  well_nested body = true /\
  occurrences SVG_CREDIT body = 1.
Proof.
  rewrite getIcon_reads.
  destruct (icon_of weather) as [icon | e]; cbn [bind]; [|discriminate].
  intros [= <-]. rewrite icon_svg_layers.
  destruct (classify icon); vm_compute; repeat split.
Qed.

(** X15. No partial SVG leaves the route: a body that is sent starts with
    the header, ends with [</svg>], has properly nested tags and carries
    the credit once. *)
Theorem route_sends_whole_documents (host : Host) (req : Request)
  (log : list event) (contentType body : string) :
  fst (route host req log) = Sent contentType body ->
  starts_with SVG_HEADER body = true /\
  ends_with "</svg>" body = true /\
  well_nested body = true /\
  occurrences SVG_CREDIT body = 1.
Proof.
  intros Hsent.
  destruct (route_sent_inv host req log contentType body Hsent)
    as (_ & lat & long & weatherData & _ & _ & Hsvg).
  exact (getIcon_returned_shape weatherData body Hsvg).
Qed.

Lemma route_sends_whole_documents_sunny :
  fst (route sunny webtask_request [])
    = Sent "image/svg+xml" (document SVG_SUN) /\
  starts_with SVG_HEADER (document SVG_SUN) = true /\
  ends_with "</svg>" (document SVG_SUN) = true /\
  well_nested (document SVG_SUN) = true /\
  occurrences SVG_CREDIT (document SVG_SUN) = 1.
Proof.
  split; [reflexivity|].
  exact (route_sends_whole_documents sunny webtask_request []
           "image/svg+xml" (document SVG_SUN) eq_refl).
Defined.

(* ================================================================== *)
(** * More on requests *)

(** X16. [requestJSON] does not read the status code: two responses with
    the same body settle the promise alike, whatever their status codes. *)
Theorem requestJSON_ignores_status (h1 h2 : Host) (url : string)
  (log : list event) (status1 status2 : Z) (body : string) :
  network h1 url = Responded status1 body ->
  network h2 url = Responded status2 body ->
  JSON_parse h1 body = JSON_parse h2 body ->
  requestJSON h1 url log = requestJSON h2 url log.
Proof.
  intros Hnet1 Hnet2 Hparse.
  rewrite !requestJSON_settles, Hnet1, Hnet2, Hparse. reflexivity.
Qed.

Lemma requestJSON_ignores_status_403_200 :
  network forbidden seattle_weather_url = Responded 403 permission_denied /\
  network refused_with_200 seattle_weather_url
    = Responded 200 permission_denied /\
  JSON_parse forbidden permission_denied
    = JSON_parse refused_with_200 permission_denied /\
  requestJSON forbidden seattle_weather_url []
    = requestJSON refused_with_200 seattle_weather_url [].
Proof.
  split; [reflexivity | split; [reflexivity | split; [reflexivity |]]].
  exact (requestJSON_ignores_status forbidden refused_with_200
           seattle_weather_url [] 403 200 permission_denied
           eq_refl eq_refl eq_refl).
Defined.
